(** * The reflection agent: generate / reflect loop over a message graph

    A shallow embedding of [chains.py] (prompt templates, the two chains and
    the start-up credential check) and [basic.py] (the two graph nodes, the
    routing function, the graph wiring and the single run of the script).

    The script is effectful: it reads and extends the process environment,
    writes to standard output, and calls a remote model.  These effects are
    threaded through a small state-and-exception monad whose state also
    keeps a chronological trace of what the process did. *)

From stdpp Require Import gmap strings list fin_maps.

Local Open Scope list_scope.

(** ** Messages *)

(** The [type] field of a langchain message. *)
Inductive role := System | Human | AI.

Record BaseMessage := mkMessage { msg_type : role; content : string }.

Definition SystemMessage (c : string) : BaseMessage := mkMessage System c.
Definition HumanMessage (c : string) : BaseMessage := mkMessage Human c.
Definition AIMessage (c : string) : BaseMessage := mkMessage AI c.

#[global] Instance role_eq_dec : EqDecision role.
Proof. solve_decision. Defined.

#[global] Instance BaseMessage_eq_dec : EqDecision BaseMessage.
Proof. solve_decision. Defined.

(** A node of a message graph returns either one message or a list of
    messages; so does the caller of [invoke]. *)
Inductive Messages := One (m : BaseMessage) | Many (ms : list BaseMessage).

Definition convert_to_messages (x : Messages) : list BaseMessage :=
  match x with
  | One m => [m]
  | Many ms => ms
  end.

(** The reducer of a [MessageGraph]: the update of a node is appended to the
    conversation.  (The library merges by message id; every message created
    in this program is new, so the merge is an append.) *)
Definition add_messages (left : list BaseMessage) (right : Messages) : list BaseMessage :=
  left ++ convert_to_messages right.

(** ** Exceptions, results, observable events *)

Inductive exn :=
| AssertionError (msg : string)
| KeyError (key : string)
| ValueError (msg : string)
| GraphRecursionError
| RemoteError (detail : string)
| ValidationError (detail : string).

Inductive result (A : Type) :=
| Ok (a : A)
| Raise (e : exn).
Arguments Ok {A} a.
Arguments Raise {A} e.

(** What [print] is given: a line of text, one of the two renderings of the
    compiled graph, or the final conversation. *)
Inductive printed :=
| Text (s : string)
| Mermaid
| Ascii
| Conversation (ms : list BaseMessage).

(** The trace records, in order, every write to standard output, every
    call of the model client ([llm.invoke], with the prompt it is given), and
    every node update applied to the conversation by the graph runtime. *)
Inductive event :=
| Print (o : printed)
| Invoke (model : string) (prompt : list BaseMessage)
| Update (node : string) (state : list BaseMessage).

Definition is_invoke (ev : event) : bool :=
  match ev with
  | Invoke _ _ => true
  | _ => false
  end.

Definition is_print (ev : event) : bool :=
  match ev with
  | Print _ => true
  | _ => false
  end.

(** A request whose prompt opens with the system message [preamble]. *)
Definition is_call_with (preamble : string) (ev : event) : bool :=
  match ev with
  | Invoke _ (m :: _) => bool_decide (m = SystemMessage preamble)
  | _ => false
  end.

Definition is_update_of (node : string) (ev : event) : bool :=
  match ev with
  | Update n _ => bool_decide (n = node)
  | _ => false
  end.

Definition count_events (p : event → bool) (tr : list event) : nat :=
  length (List.filter p tr).

Definition model_calls (tr : list event) : nat := count_events is_invoke tr.

(** Conversation lengths right after each update of [node]. *)
Definition lengths_after (node : string) (tr : list event) : list nat :=
  omap (λ ev, match ev with
              | Update n st => if bool_decide (n = node) then Some (length st) else None
              | _ => None
              end) tr.

(** Conversation lengths right after every update, whatever the node. *)
Definition update_lengths (tr : list event) : list nat :=
  omap (λ ev, match ev with
              | Update _ st => Some (length st)
              | _ => None
              end) tr.

Definition is_ok {A} (r : result A) : bool :=
  match r with
  | Ok _ => true
  | Raise _ => false
  end.

(** ** pydantic's [SecretStr] *)

Record SecretStr := mkSecretStr { get_secret_value : string }.

(** What [str] and [print] show of a secret. *)
Definition SecretStr_display (s : SecretStr) : string :=
  match get_secret_value s with
  | "" => ""
  | _ => "**********"
  end.

(** ** Prompt templates (chains.py) *)

Inductive template_part :=
| Pair (role_name : string) (template : string)
| MessagesPlaceholder (variable_name : string).

Definition ChatPromptTemplate := list template_part.

Definition from_messages (parts : list template_part) : ChatPromptTemplate := parts.

Definition role_of_name (r : string) : option role :=
  if bool_decide (r = "system") then Some System
  else if bool_decide (r = "human") then Some Human
  else if bool_decide (r = "user") then Some Human
  else if bool_decide (r = "ai") then Some AI
  else if bool_decide (r = "assistant") then Some AI
  else None.

(** Formatting a template: a pair becomes one message, a placeholder is
    replaced by the list of messages bound to its variable. *)
Fixpoint format_messages (t : ChatPromptTemplate)
    (inputs : gmap string (list BaseMessage)) : result (list BaseMessage) :=
  match t with
  | [] => Ok []
  | Pair r text :: t' =>
      match role_of_name r with
      | None => Raise (ValueError r)
      | Some ro =>
          match format_messages t' inputs with
          | Ok rest => Ok (mkMessage ro text :: rest)
          | Raise e => Raise e
          end
      end
  | MessagesPlaceholder v :: t' =>
      match inputs !! v with
      | None => Raise (KeyError v)
      | Some ms =>
          match format_messages t' inputs with
          | Ok rest => Ok (ms ++ rest)
          | Raise e => Raise e
          end
      end
  end.

Definition generation_system : string :=
  "You are a twitter techie influencer assistant tasked with writing excellent twitter posts. "
  +:+ "Generate the best twitter post possible for the user's request. "
  +:+ "If the user provides critique, respond with a revised version of your previous attempts.".

Definition reflection_system : string :=
  "You are a viral twitter influencer grading a tweet. Generate critique and recommendations for the user's tweet. "
  +:+ "Always provide detailed recommendations, including requests for length, virality, style, etc.".

Definition generation_prompt : ChatPromptTemplate :=
  from_messages [ Pair "system" generation_system; MessagesPlaceholder "messages" ].

Definition reflection_prompt : ChatPromptTemplate :=
  from_messages [ Pair "system" reflection_system; MessagesPlaceholder "messages" ].

(** The model client and a two-stage chain [prompt | llm]. *)
Record ChatGoogleGenerativeAI := mkChat { model : string }.

Record RunnableSequence := pipe { first : ChatPromptTemplate; last : ChatGoogleGenerativeAI }.

Definition llm : ChatGoogleGenerativeAI := mkChat "gemini-2.5-pro".

Definition generation_chain : RunnableSequence := pipe generation_prompt llm.
Definition reflection_chain : RunnableSequence := pipe reflection_prompt llm.

(** ** Names of the graph (basic.py) *)

Definition REFLECT : string := "reflect".
Definition GENERATE : string := "generate".
Definition END : string := "__end__".

(** The only control logic of the repository: [len(state) > 6]. *)
Definition should_continue (state : list BaseMessage) : string :=
  if decide (6 < length state) then END else REFLECT.

(** ** Remote endpoints used to run the model on concrete inputs *)

(** An endpoint that answers every request with the same text. *)
Definition steady_remote (reply : string)
    (_ : string) (_ : list BaseMessage) (w : unit) : (string + string) * unit :=
  (inl reply, w).

(** An endpoint that rejects every request. *)
Definition failing_remote (detail : string)
    (_ : string) (_ : list BaseMessage) (w : unit) : (string + string) * unit :=
  (inr detail, w).

(** An endpoint that counts the requests it has served and fails from the
    [n]-th one on. *)
Definition flaky_remote (n : nat) (detail : string)
    (_ : string) (_ : list BaseMessage) (served : nat) : (string + string) * nat :=
  if decide (served < n) then (inl "text", S served) else (inr detail, S served).

(** A client constructor that refuses a configuration in which the
    credential is missing or empty, and accepts every other. *)
Definition strict_client {W : Type} (_ : string) (env : gmap string string) (w : W)
    : option string * W :=
  match env !! "GOOGLE_API_KEY" with
  | None => (Some "API key required", w)
  | Some "" => (Some "API key required", w)
  | Some _ => (None, w)
  end.

(** ** The process: state, monad, primitive effects *)

Section Agent.

Context {W : Type}.

(** The remote model, as the nodes see it through [llm.invoke]: one call of
    the client, whatever it sends on the wire to carry the call out.  Given
    the model name and the prompt, it answers with a text or fails with a
    diagnostic, and may change in doing so. *)
Variable remote : string → list BaseMessage → W → (string + string) * W.

(** The construction of a model client, [ChatGoogleGenerativeAI(model=...)]:
    the library validates the configuration it finds in the environment and
    either builds the client or refuses, with a diagnostic.  What it accepts
    is the library's business, so it is a parameter here. *)
Variable client_init : string → gmap string string → W → option string * W.

Record process := mkProcess {
  world : W;
  environ : gmap string string;
  dotenv_file : gmap string string;
  trace : list event
}.

Definition M (A : Type) : Type := process → result A * process.

Definition ret {A} (a : A) : M A := λ s, (Ok a, s).

Definition raise {A} (e : exn) : M A := λ s, (Raise e, s).

Definition bind {A B} (m : M A) (k : A → M B) : M B :=
  λ s, match m s with
       | (Ok a, s') => k a s'
       | (Raise e, s') => (Raise e, s')
       end.

Notation "x <~ m ;; k" := (bind m (λ x, k))
  (at level 100, m at next level, k at level 200, right associativity).

Definition lift {A} (r : result A) : M A := λ s, (r, s).

Definition log (ev : event) : M unit :=
  λ s, (Ok tt, mkProcess (world s) (environ s) (dotenv_file s) (trace s ++ [ev])).

(** [print(a, b, ...)]: the arguments separated by one space. *)
Definition print (args : list string) : M unit :=
  log (Print (Text (String.concat " " args))).

(** [load_dotenv()]: variables of the [.env] file enter the environment,
    those already set keep their value. *)
Definition load_dotenv : M unit :=
  λ s, (Ok tt, mkProcess (world s) (environ s ∪ dotenv_file s) (dotenv_file s) (trace s)).

(** [key in os.environ] *)
Definition environ_contains (key : string) : M bool :=
  λ s, (Ok (bool_decide (is_Some (environ s !! key))), s).

(** [os.environ.get(key)] *)
Definition environ_get (key : string) : M (option string) :=
  λ s, (Ok (environ s !! key), s).

(** [os.environ[key]] *)
Definition environ_getitem (key : string) : M string :=
  λ s, match environ s !! key with
       | Some v => (Ok v, s)
       | None => (Raise (KeyError key), s)
       end.

Definition assert (cond : bool) (msg : string) : M unit :=
  if cond then ret tt else raise (AssertionError msg).

Definition str_of_option (o : option string) : string :=
  match o with
  | Some v => v
  | None => "None"
  end.

(** [ChatGoogleGenerativeAI(model=name)]: a refused configuration is raised
    as a validation error. *)
Definition new_client (name : string) : M ChatGoogleGenerativeAI :=
  λ s, match client_init name (environ s) (world s) with
       | (None, w') =>
           (Ok (mkChat name), mkProcess w' (environ s) (dotenv_file s) (trace s))
       | (Some detail, w') =>
           (Raise (ValidationError detail),
            mkProcess w' (environ s) (dotenv_file s) (trace s))
       end.

(** One call of the model client.  The reply of a chat model is an
    assistant message; a failure of the endpoint is raised as it is. *)
Definition llm_invoke (client : ChatGoogleGenerativeAI) (prompt : list BaseMessage)
    : M BaseMessage :=
  _ <~ log (Invoke (model client) prompt) ;;
  λ s, match remote (model client) prompt (world s) with
       | (inl text, w') =>
           (Ok (AIMessage text), mkProcess w' (environ s) (dotenv_file s) (trace s))
       | (inr detail, w') =>
           (Raise (RemoteError detail), mkProcess w' (environ s) (dotenv_file s) (trace s))
       end.

(** [chain.invoke(inputs)] for [chain = prompt | llm]. *)
Definition chain_invoke (c : RunnableSequence) (inputs : gmap string (list BaseMessage))
    : M BaseMessage :=
  prompt <~ lift (format_messages (first c) inputs) ;;
  llm_invoke (last c) prompt.

(** ** The two nodes (basic.py) *)

Definition generate_node (state : list BaseMessage) : M Messages :=
  reply <~ chain_invoke generation_chain {[ "messages" := state ]} ;;
  ret (One reply).

Definition reflect_node (messages : list BaseMessage) : M Messages :=
  response <~ chain_invoke reflection_chain {[ "messages" := messages ]} ;;
  ret (Many [HumanMessage (content response)]).

(** ** The message graph and its runtime *)

Record MessageGraph := mkGraph {
  nodes : gmap string (list BaseMessage → M Messages);
  entry_point : option string;
  branches : gmap string (list BaseMessage → string);
  edges : gmap string string
}.

Definition new_graph : MessageGraph := mkGraph ∅ None ∅ ∅.

Definition add_node (name : string) (action : list BaseMessage → M Messages)
    (g : MessageGraph) : MessageGraph :=
  mkGraph (<[name := action]> (nodes g)) (entry_point g) (branches g) (edges g).

Definition set_entry_point (name : string) (g : MessageGraph) : MessageGraph :=
  mkGraph (nodes g) (Some name) (branches g) (edges g).

Definition add_conditional_edges (source : string) (path : list BaseMessage → string)
    (g : MessageGraph) : MessageGraph :=
  mkGraph (nodes g) (entry_point g) (<[source := path]> (branches g)) (edges g).

Definition add_edge (source target : string) (g : MessageGraph) : MessageGraph :=
  mkGraph (nodes g) (entry_point g) (branches g) (<[source := target]> (edges g)).

Definition graph : MessageGraph :=
  let g := new_graph in
  let g := add_node GENERATE generate_node g in
  let g := add_node REFLECT reflect_node g in
  let g := set_entry_point GENERATE g in
  let g := add_conditional_edges GENERATE should_continue g in
  let g := add_edge REFLECT GENERATE g in
  g.

(** Where control goes after [node] has updated the conversation to
    [state]: the routing function of the node if it has one, its fixed edge
    otherwise. *)
Definition successor (g : MessageGraph) (node : string) (state : list BaseMessage)
    : option string :=
  match branches g !! node with
  | Some path => Some (path state)
  | None => edges g !! node
  end.

(** One step of the runtime: run the node on the whole conversation and
    append what it returns. *)
Definition superstep (g : MessageGraph) (node : string) (state : list BaseMessage)
    : M (list BaseMessage) :=
  match nodes g !! node with
  | None => raise (ValueError node)
  | Some action =>
      out <~ action state ;;
      let state' := add_messages state out in
      _ <~ log (Update node state') ;;
      ret state'
  end.

(** The runtime loop, bounded by the recursion limit of the compiled
    graph: a step, then the successor decides; [END] returns the
    conversation.  (A node without successor would end the run as well;
    [graph] has none.) *)
Fixpoint pregel_loop (g : MessageGraph) (limit : nat) (node : string)
    (state : list BaseMessage) : M (list BaseMessage) :=
  match limit with
  | 0 => raise GraphRecursionError
  | S limit' =>
      state' <~ superstep g node state ;;
      match successor g node state' with
      | None => ret state'
      | Some next =>
          if decide (next = END) then ret state'
          else pregel_loop g limit' next state'
      end
  end.

Record CompiledGraph := mkCompiled { builder : MessageGraph; recursion_limit : nat }.

(** [graph.compile()], with the default recursion limit of the library. *)
Definition compile (g : MessageGraph) : CompiledGraph := mkCompiled g 25.

Definition invoke (a : CompiledGraph) (input : Messages) : M (list BaseMessage) :=
  match entry_point (builder a) with
  | None => raise (ValueError "Graph must have an entrypoint")
  | Some start =>
      pregel_loop (builder a) (recursion_limit a) start (add_messages [] input)
  end.

Definition app : CompiledGraph := compile graph.

(** ** The two modules as programs *)

(** Importing [chains]: the credential check and the print of lines 10-12,
    then the construction of the client of line 15.  The prompts and the two
    chains that follow are the constants above; building them has no
    effect. *)
Definition chains_py : M unit :=
  _ <~ load_dotenv ;;
  present <~ environ_contains "GOOGLE_API_KEY" ;;
  _ <~ assert present "GOOGLE_API_KEY not loaded from .env!" ;;
  value <~ environ_get "GOOGLE_API_KEY" ;;
  _ <~ print [ "GOOGLE_API_KEY loaded:"; str_of_option value ] ;;
  llm <~ new_client "gemini-2.5-pro" ;;
  ret tt.

(** The module-level names of [basic.py] once the script has run. *)
Record globals := mkGlobals {
  GOOGLE_API_KEY : SecretStr;
  api_key_str : string;
  response : list BaseMessage
}.

Definition basic_py : M globals :=
  _ <~ chains_py ;;
  _ <~ load_dotenv ;;
  key <~ environ_getitem "GOOGLE_API_KEY" ;;
  let GOOGLE_API_KEY := mkSecretStr key in
  let api_key_str := get_secret_value GOOGLE_API_KEY in
  gemini_llm <~ new_client "gemini-2.5-pro" ;;
  _ <~ log (Print Mermaid) ;;
  _ <~ log (Print Ascii) ;;
  response <~ invoke app (One (HumanMessage "AI Agents taking over content creation")) ;;
  _ <~ log (Print (Conversation response)) ;;
  ret (mkGlobals GOOGLE_API_KEY api_key_str response).

(** The process as the operating system starts it. *)
Definition startup (w : W) (env dotenv : gmap string string) : process :=
  mkProcess w env dotenv [].

(** The prompt a chain sends: its system preamble, then the conversation. *)
Definition prompt_of (preamble : string) (state : list BaseMessage) : list BaseMessage :=
  SystemMessage preamble :: state.

(** The process [s] after the remote moved to [w'] and [evs] were traced. *)
Definition extend (s : process) (w' : W) (evs : list event) : process :=
  mkProcess w' (environ s) (dotenv_file s) (trace s ++ evs).

(** The request the script sends to the graph. *)
Definition topic : BaseMessage := HumanMessage "AI Agents taking over content creation".

(** The remote endpoint never fails. *)
Definition always_replies : Prop :=
  ∀ name prompt w, ∃ text w', remote name prompt w = (inl text, w').

(** What a completed run from the single turn [m] looks like: the seven
    replies alternate between assistant drafts and critiques re-tagged as
    human turns. *)
Definition completed (m : BaseMessage) (s : process)
    (state' : list BaseMessage) (s' : process) : Prop :=
  ∃ t1 t2 t3 t4 t5 t6 t7 w' evs,
    state' = [ m; AIMessage t1; HumanMessage t2; AIMessage t3; HumanMessage t4;
               AIMessage t5; HumanMessage t6; AIMessage t7 ]
    ∧ s' = extend s w' evs
    ∧ count_events (is_call_with generation_system) evs = 4
    ∧ count_events (is_call_with reflection_system) evs = 3
    ∧ model_calls evs = 7
    ∧ count_events (is_update_of GENERATE) evs = 4
    ∧ count_events (is_update_of REFLECT) evs = 3
    ∧ lengths_after GENERATE evs = [2; 4; 6; 8]
    ∧ lengths_after REFLECT evs = [3; 5; 7]
    ∧ count_events is_print evs = 0.

(** What an aborted run looks like: some request was refused by the remote
    endpoint and its diagnostic is the exception of the run. *)
Definition aborted (s : process) (e : exn) (s' : process) : Prop :=
  ∃ prompt w detail w' evs,
    remote (model llm) prompt w = (inr detail, w')
    ∧ e = RemoteError detail
    ∧ s' = extend s w' evs
    ∧ count_events is_print evs = 0.

(** *** Vocabulary for runs from an arbitrary conversation *)

(** How many reflection steps a run goes through when it is given [n]
    turns: generation leaves [n + 1], [n + 3], ... turns, and the loop stops
    at the first of these that exceeds 6. *)
Definition rounds (n : nat) : nat := (7 - n) / 2.

Definition other_speaker (r : role) : role :=
  match r with
  | AI => Human
  | Human => AI
  | System => System
  end.

(** [k] roles taking turns, [r] first. *)
Fixpoint alternating (k : nat) (r : role) : list role :=
  match k with
  | 0 => []
  | S k' => r :: alternating k' (other_speaker r)
  end.

Definition is_remote_error {A} (r : result A) : bool :=
  match r with
  | Raise (RemoteError _) => true
  | _ => false
  end.

(** A request of a run that was given [input]: it goes to the model of
    [chains.py], and its prompt is one of the two system preambles followed
    by a conversation that still begins with [input]. *)
Definition carries (input : list BaseMessage) (ev : event) : Prop :=
  match ev with
  | Invoke name prompt =>
      name = "gemini-2.5-pro"
      ∧ ∃ preamble conversation,
          prompt = SystemMessage preamble :: conversation
          ∧ (preamble = generation_system ∨ preamble = reflection_system)
          ∧ input `prefix_of` conversation
  | _ => True
  end.

(** The line [chains.py] prints for the credential [key]. *)
Definition credential_line (key : string) : event :=
  Print (Text ("GOOGLE_API_KEY loaded: " +:+ key)).

(** ** Equations of the chains, the nodes and the runtime *)

Lemma names_distinct :
  GENERATE ≠ REFLECT ∧ REFLECT ≠ GENERATE ∧ REFLECT ≠ END ∧ GENERATE ≠ END.
Proof. repeat split; discriminate. Qed.

Lemma format_prompt (preamble : string) (state : list BaseMessage) :
  format_messages
    (from_messages [ Pair "system" preamble; MessagesPlaceholder "messages" ])
    {[ "messages" := state ]}
  = Ok (prompt_of preamble state).
Proof.
  unfold from_messages, prompt_of. cbn [format_messages].
  change (role_of_name "system") with (Some System).
  rewrite lookup_singleton_eq. by rewrite app_nil_r.
Qed.

Lemma llm_invoke_eq (client : ChatGoogleGenerativeAI) (prompt : list BaseMessage)
    (s : process) :
  llm_invoke client prompt s =
  match remote (model client) prompt (world s) with
  | (inl text, w') => (Ok (AIMessage text), extend s w' [Invoke (model client) prompt])
  | (inr detail, w') =>
      (Raise (RemoteError detail), extend s w' [Invoke (model client) prompt])
  end.
Proof.
  unfold llm_invoke, bind, log, extend. cbn.
  by destruct (remote (model client) prompt (world s)) as [[text|detail] w'].
Qed.

Lemma chain_invoke_eq (preamble : string) (state : list BaseMessage) (s : process) :
  chain_invoke
    (pipe (from_messages [ Pair "system" preamble; MessagesPlaceholder "messages" ]) llm)
    {[ "messages" := state ]} s
  = llm_invoke llm (prompt_of preamble state) s.
Proof.
  unfold chain_invoke, bind, lift. cbn [first last]. by rewrite format_prompt.
Qed.

Lemma generate_node_eq (state : list BaseMessage) (s : process) :
  generate_node state s =
  match remote (model llm) (prompt_of generation_system state) (world s) with
  | (inl text, w') =>
      (Ok (One (AIMessage text)),
       extend s w' [Invoke (model llm) (prompt_of generation_system state)])
  | (inr detail, w') =>
      (Raise (RemoteError detail),
       extend s w' [Invoke (model llm) (prompt_of generation_system state)])
  end.
Proof.
  unfold generate_node, bind, generation_chain, generation_prompt.
  rewrite chain_invoke_eq, llm_invoke_eq.
  by destruct (remote _ _ _) as [[text|detail] w'].
Qed.

Lemma reflect_node_eq (messages : list BaseMessage) (s : process) :
  reflect_node messages s =
  match remote (model llm) (prompt_of reflection_system messages) (world s) with
  | (inl text, w') =>
      (Ok (Many [HumanMessage text]),
       extend s w' [Invoke (model llm) (prompt_of reflection_system messages)])
  | (inr detail, w') =>
      (Raise (RemoteError detail),
       extend s w' [Invoke (model llm) (prompt_of reflection_system messages)])
  end.
Proof.
  unfold reflect_node, bind, reflection_chain, reflection_prompt.
  rewrite chain_invoke_eq, llm_invoke_eq.
  by destruct (remote _ _ _) as [[text|detail] w'].
Qed.

Lemma nodes_generate : nodes graph !! GENERATE = Some generate_node.
Proof.
  cbn. rewrite lookup_insert_ne by discriminate. apply lookup_insert_eq.
Qed.

Lemma nodes_reflect : nodes graph !! REFLECT = Some reflect_node.
Proof. cbn. apply lookup_insert_eq. Qed.

Lemma successor_generate (state : list BaseMessage) :
  successor graph GENERATE state = Some (should_continue state).
Proof. unfold successor. cbn. by rewrite lookup_insert_eq. Qed.

Lemma successor_reflect (state : list BaseMessage) :
  successor graph REFLECT state = Some GENERATE.
Proof.
  unfold successor. cbn.
  rewrite lookup_insert_ne by discriminate. rewrite lookup_empty.
  apply lookup_insert_eq.
Qed.

Lemma superstep_generate (state : list BaseMessage) (s : process) :
  superstep graph GENERATE state s =
  match remote (model llm) (prompt_of generation_system state) (world s) with
  | (inl text, w') =>
      (Ok (state ++ [AIMessage text]),
       extend s w' [ Invoke (model llm) (prompt_of generation_system state);
                     Update GENERATE (state ++ [AIMessage text]) ])
  | (inr detail, w') =>
      (Raise (RemoteError detail),
       extend s w' [Invoke (model llm) (prompt_of generation_system state)])
  end.
Proof.
  unfold superstep. rewrite nodes_generate. unfold bind.
  rewrite generate_node_eq.
  destruct (remote _ _ _) as [[text|detail] w']; [|done].
  unfold log, ret, extend, add_messages. cbn. by rewrite <- app_assoc.
Qed.

Lemma superstep_reflect (state : list BaseMessage) (s : process) :
  superstep graph REFLECT state s =
  match remote (model llm) (prompt_of reflection_system state) (world s) with
  | (inl text, w') =>
      (Ok (state ++ [HumanMessage text]),
       extend s w' [ Invoke (model llm) (prompt_of reflection_system state);
                     Update REFLECT (state ++ [HumanMessage text]) ])
  | (inr detail, w') =>
      (Raise (RemoteError detail),
       extend s w' [Invoke (model llm) (prompt_of reflection_system state)])
  end.
Proof.
  unfold superstep. rewrite nodes_reflect. unfold bind.
  rewrite reflect_node_eq.
  destruct (remote _ _ _) as [[text|detail] w']; [|done].
  unfold log, ret, extend, add_messages. cbn. by rewrite <- app_assoc.
Qed.

Lemma loop_generate (limit : nat) (state : list BaseMessage) (s : process) :
  pregel_loop graph (S limit) GENERATE state s =
  match superstep graph GENERATE state s with
  | (Ok state', s') =>
      if decide (6 < length state') then (Ok state', s')
      else pregel_loop graph limit REFLECT state' s'
  | (Raise e, s') => (Raise e, s')
  end.
Proof.
  cbn [pregel_loop]. unfold bind.
  destruct (superstep graph GENERATE state s) as [[state'|e] s']; [|done].
  rewrite successor_generate. unfold should_continue.
  destruct (decide (6 < length state')).
  - by rewrite decide_True.
  - by rewrite decide_False.
Qed.

Lemma loop_reflect (limit : nat) (state : list BaseMessage) (s : process) :
  pregel_loop graph (S limit) REFLECT state s =
  match superstep graph REFLECT state s with
  | (Ok state', s') => pregel_loop graph limit GENERATE state' s'
  | (Raise e, s') => (Raise e, s')
  end.
Proof.
  cbn [pregel_loop]. unfold bind.
  destruct (superstep graph REFLECT state s) as [[state'|e] s']; [|done].
  rewrite successor_reflect. by rewrite decide_False.
Qed.

Lemma invoke_app (input : Messages) (s : process) :
  invoke app input s =
  pregel_loop graph 25 GENERATE (convert_to_messages input) s.
Proof. reflexivity. Qed.

(** ** The trace of a run *)

Lemma extend_extend (s : process) (w1 w2 : W) (evs1 evs2 : list event) :
  extend (extend s w1 evs1) w2 evs2 = extend s w2 (evs1 ++ evs2).
Proof. unfold extend. cbn. by rewrite <- app_assoc. Qed.

Lemma count_events_app (p : event → bool) (tr1 tr2 : list event) :
  count_events p (tr1 ++ tr2) = count_events p tr1 + count_events p tr2.
Proof. unfold count_events. by rewrite List.filter_app, length_app. Qed.

Lemma lengths_after_app (node : string) (tr1 tr2 : list event) :
  lengths_after node (tr1 ++ tr2) = lengths_after node tr1 ++ lengths_after node tr2.
Proof. unfold lengths_after. apply omap_app. Qed.

Lemma aborted_intro (s : process) (prompt : list BaseMessage) (w : W)
    (detail : string) (w' : W) (evs : list event) :
  remote (model llm) prompt w = (inr detail, w') →
  count_events is_print evs = 0 →
  aborted s (RemoteError detail) (extend s w' evs).
Proof. intros Hfail Hquiet. by exists prompt, w, detail, w', evs. Qed.

Ltac run_generate t w E :=
  rewrite loop_generate, superstep_generate; cbn [world extend];
  match goal with
  | |- context [remote ?name ?prompt ?w0] =>
      destruct (remote name prompt w0) as [[t|?detail] w] eqn:E
  end; cbn beta iota;
  [ rewrite ?extend_extend
  | rewrite ?extend_extend;
    eapply aborted_intro; [exact E | reflexivity] ].

Ltac run_reflect t w E :=
  rewrite loop_reflect, superstep_reflect; cbn [world extend];
  match goal with
  | |- context [remote ?name ?prompt ?w0] =>
      destruct (remote name prompt w0) as [[t|?detail] w] eqn:E
  end; cbn beta iota;
  [ rewrite ?extend_extend
  | rewrite ?extend_extend;
    eapply aborted_intro; [exact E | reflexivity] ].

Lemma run_from_one_turn (m : BaseMessage) (s : process) :
  match pregel_loop graph 25 GENERATE [m] s with
  | (Ok state', s') => completed m s state' s'
  | (Raise e, s') => aborted s e s'
  end.
Proof.
  run_generate t1 w1 E1. rewrite decide_False by (cbn; lia).
  run_reflect t2 w2 E2.
  run_generate t3 w3 E3. rewrite decide_False by (cbn; lia).
  run_reflect t4 w4 E4.
  run_generate t5 w5 E5. rewrite decide_False by (cbn; lia).
  run_reflect t6 w6 E6.
  run_generate t7 w7 E7. rewrite decide_True by (cbn; lia).
  exists t1, t2, t3, t4, t5, t6, t7, w7. eexists.
  split; [reflexivity|]. split; [reflexivity|].
  repeat split; vm_compute; reflexivity.
Qed.

Lemma extend_nil (s : process) : extend s (world s) [] = s.
Proof. destruct s. unfold extend. cbn. by rewrite app_nil_r. Qed.

Lemma update_lengths_app (tr1 tr2 : list event) :
  update_lengths (tr1 ++ tr2) = update_lengths tr1 ++ update_lengths tr2.
Proof. unfold update_lengths. apply omap_app. Qed.

(** Whatever the remote endpoint does, and however long the loop is allowed
    to run, a run from either node only adds to the trace, prints nothing,
    leaves the environment alone, keeps the conversation it was given as a
    prefix of the one it returns, and applies updates that each make the
    conversation one turn longer. *)
Lemma loop_invariant (limit : nat) :
  ∀ (node : string) (state : list BaseMessage) (s : process),
    node = GENERATE ∨ node = REFLECT →
    ∃ w' evs,
      (pregel_loop graph limit node state s).2 = extend s w' evs
      ∧ count_events is_print evs = 0
      ∧ update_lengths evs = seq (S (length state)) (length (update_lengths evs))
      ∧ ∀ state', (pregel_loop graph limit node state s).1 = Ok state' →
                  state `prefix_of` state'.
Proof.
  induction limit as [|limit IH]; intros node state s Hnode.
  - exists (world s), []. rewrite extend_nil. by repeat split.
  - destruct Hnode as [-> | ->].
    + rewrite loop_generate, superstep_generate.
      destruct (remote _ _ _) as [[text|detail] w1] eqn:E.
      2: { eexists _, _. by repeat split. }
      destruct (decide (6 < length (state ++ [AIMessage text]))) as [Hend|Hgo].
      { eexists _, _. split; [reflexivity|]. split; [reflexivity|]. split.
        - cbn. by rewrite length_app, Nat.add_1_r.
        - intros state' [= <-]. by apply prefix_app_r. }
      destruct (IH REFLECT (state ++ [AIMessage text])
                  (extend s w1 [ Invoke (model llm) (prompt_of generation_system state);
                                 Update GENERATE (state ++ [AIMessage text]) ]))
        as (w' & evs & Hs & Hquiet & Hlen & Hpre); [by right|].
      eexists w', _. rewrite Hs, extend_extend. split; [reflexivity|].
      split; [by rewrite count_events_app, Hquiet|].
      split.
      * rewrite update_lengths_app, length_app, Hlen. cbn.
        rewrite length_seq, !length_app, Nat.add_1_r. reflexivity.
      * intros state' Hok. apply Hpre in Hok.
        etrans; [|exact Hok]. by apply prefix_app_r.
    + rewrite loop_reflect, superstep_reflect.
      destruct (remote _ _ _) as [[text|detail] w1] eqn:E.
      2: { eexists _, _. by repeat split. }
      destruct (IH GENERATE (state ++ [HumanMessage text])
                  (extend s w1 [ Invoke (model llm) (prompt_of reflection_system state);
                                 Update REFLECT (state ++ [HumanMessage text]) ]))
        as (w' & evs & Hs & Hquiet & Hlen & Hpre); [by left|].
      eexists w', _. rewrite Hs, extend_extend. split; [reflexivity|].
      split; [by rewrite count_events_app, Hquiet|].
      split.
      * rewrite update_lengths_app, length_app, Hlen. cbn.
        rewrite length_seq, !length_app, Nat.add_1_r. reflexivity.
      * intros state' Hok. apply Hpre in Hok.
        etrans; [|exact Hok]. by apply prefix_app_r.
Qed.

(** ** Equations of the two modules *)

Lemma load_dotenv_twice (env dotenv : gmap string string) :
  env ∪ dotenv ∪ dotenv = env ∪ dotenv.
Proof. by rewrite <- (assoc_L (∪)), (idemp_L (∪)). Qed.

Lemma chains_py_eq (s : process) :
  chains_py s =
  match (environ s ∪ dotenv_file s) !! "GOOGLE_API_KEY" with
  | Some key =>
      match client_init "gemini-2.5-pro" (environ s ∪ dotenv_file s) (world s) with
      | (None, w1) =>
          (Ok tt,
           mkProcess w1 (environ s ∪ dotenv_file s) (dotenv_file s)
             (trace s ++ [Print (Text ("GOOGLE_API_KEY loaded: " +:+ key))]))
      | (Some detail, w1) =>
          (Raise (ValidationError detail),
           mkProcess w1 (environ s ∪ dotenv_file s) (dotenv_file s)
             (trace s ++ [Print (Text ("GOOGLE_API_KEY loaded: " +:+ key))]))
      end
  | None =>
      (Raise (AssertionError "GOOGLE_API_KEY not loaded from .env!"),
       mkProcess (world s) (environ s ∪ dotenv_file s) (dotenv_file s) (trace s))
  end.
Proof.
  unfold chains_py, bind, load_dotenv, environ_contains, environ_get, print, log,
    new_client.
  cbn [environ world dotenv_file trace].
  destruct ((environ s ∪ dotenv_file s) !! "GOOGLE_API_KEY") as [key|] eqn:E.
  - rewrite bool_decide_eq_true_2 by eauto. cbn. rewrite E.
    by destruct (client_init _ _ _) as [[detail|] w1].
  - rewrite bool_decide_eq_false_2 by (by intros [? ?]). reflexivity.
Qed.

Lemma basic_py_eq (s : process) :
  basic_py s =
  match (environ s ∪ dotenv_file s) !! "GOOGLE_API_KEY" with
  | Some key =>
      match client_init "gemini-2.5-pro" (environ s ∪ dotenv_file s) (world s) with
      | (None, w1) =>
          match client_init "gemini-2.5-pro" (environ s ∪ dotenv_file s) w1 with
          | (None, w2) =>
              match invoke app (One topic)
                      (mkProcess w2 (environ s ∪ dotenv_file s) (dotenv_file s)
                         (trace s ++ [ Print (Text ("GOOGLE_API_KEY loaded: " +:+ key));
                                       Print Mermaid; Print Ascii ])) with
              | (Ok reply, s') =>
                  (Ok (mkGlobals (mkSecretStr key) key reply),
                   extend s' (world s') [Print (Conversation reply)])
              | (Raise e, s') => (Raise e, s')
              end
          | (Some detail, w2) =>
              (Raise (ValidationError detail),
               mkProcess w2 (environ s ∪ dotenv_file s) (dotenv_file s)
                 (trace s ++ [Print (Text ("GOOGLE_API_KEY loaded: " +:+ key))]))
          end
      | (Some detail, w1) =>
          (Raise (ValidationError detail),
           mkProcess w1 (environ s ∪ dotenv_file s) (dotenv_file s)
             (trace s ++ [Print (Text ("GOOGLE_API_KEY loaded: " +:+ key))]))
      end
  | None =>
      (Raise (AssertionError "GOOGLE_API_KEY not loaded from .env!"),
       mkProcess (world s) (environ s ∪ dotenv_file s) (dotenv_file s) (trace s))
  end.
Proof.
  unfold basic_py, bind. rewrite chains_py_eq.
  destruct ((environ s ∪ dotenv_file s) !! "GOOGLE_API_KEY") as [key|] eqn:E; [|done].
  destruct (client_init _ _ (world s)) as [[detail|] w1]; [done|].
  unfold load_dotenv, environ_getitem, log, new_client.
  cbn [environ world dotenv_file trace].
  rewrite load_dotenv_twice, E. cbn [environ world dotenv_file trace].
  destruct (client_init _ _ w1) as [[detail|] w2]; [done|].
  cbn [environ world dotenv_file trace].
  rewrite <- !app_assoc. cbn [List.app]. unfold topic.
  by destruct (invoke app _ _) as [[reply|e] s'].
Qed.

Lemma script_without_credential (w : W) (env dotenv : gmap string string) :
  (env ∪ dotenv) !! "GOOGLE_API_KEY" = None →
  basic_py (startup w env dotenv) =
  (Raise (AssertionError "GOOGLE_API_KEY not loaded from .env!"),
   mkProcess w (env ∪ dotenv) dotenv []).
Proof.
  intros Hkey. rewrite basic_py_eq.
  cbn [startup environ dotenv_file world trace]. by rewrite Hkey.
Qed.

(** The script once the credential is in place.  The credential line is
    printed; then either a client is refused, and nothing more happens, or
    both clients are built, the graph is rendered twice and run, and the
    process ends with the eight turns of a completed run, printed last, or
    on the failure of a model call. *)
Lemma script_shape (w : W) (env dotenv : gmap string string) (key : string) :
  (env ∪ dotenv) !! "GOOGLE_API_KEY" = Some key →
  ∃ w' evs,
    count_events is_print evs = 0
    ∧ match basic_py (startup w env dotenv) with
      | (Ok g, s') =>
          g = mkGlobals (mkSecretStr key) key (response g)
          ∧ length (response g) = 8
          ∧ response g !! 0 = Some topic
          ∧ s' = mkProcess w' (env ∪ dotenv) dotenv
                   ([credential_line key; Print Mermaid; Print Ascii]
                    ++ evs ++ [Print (Conversation (response g))])
      | (Raise (ValidationError detail), s') =>
          (∃ w0, client_init "gemini-2.5-pro" (env ∪ dotenv) w0 = (Some detail, w'))
          ∧ s' = mkProcess w' (env ∪ dotenv) dotenv [credential_line key]
      | (Raise e, s') =>
          (∃ detail, e = RemoteError detail)
          ∧ s' = mkProcess w' (env ∪ dotenv) dotenv
                   ([credential_line key; Print Mermaid; Print Ascii] ++ evs)
      end.
Proof.
  intros Hkey. rewrite basic_py_eq.
  cbn [startup environ dotenv_file world trace]. rewrite Hkey, app_nil_l.
  destruct (client_init _ _ w) as [[detail|] w1] eqn:Hfirst.
  { exists w1, []. split; [done|]. split; [by exists w|done]. }
  destruct (client_init _ _ w1) as [[detail|] w2] eqn:Hsecond.
  { exists w2, []. split; [done|]. split; [by exists w1|done]. }
  rewrite invoke_app. cbn [convert_to_messages].
  pose proof (run_from_one_turn topic
                (mkProcess w2 (env ∪ dotenv) dotenv
                   [ Print (Text ("GOOGLE_API_KEY loaded: " +:+ key));
                     Print Mermaid; Print Ascii ])) as Hshape.
  destruct (pregel_loop graph 25 GENERATE [topic] _) as [[reply|e] s'].
  - destruct Hshape as (t1 & t2 & t3 & t4 & t5 & t6 & t7 & w' & evs & -> & -> & Hquiet).
    do 7 destruct Hquiet as [_ Hquiet].
    exists w', evs. split; [done|]. cbn [response].
    split; [done|]. split; [done|]. split; [done|].
    unfold extend, credential_line. cbn [world environ dotenv_file trace].
    by rewrite <- !app_assoc.
  - destruct Hshape as (prompt & w0 & detail & w' & evs & _ & -> & -> & Hquiet).
    exists w', evs. split; [done|]. split; [by eauto|]. done.
Qed.

(** ** Runs from a conversation of one turn *)

Lemma run_completed (input : Messages) (m : BaseMessage) (s : process)
    (state' : list BaseMessage) (s' : process) :
  convert_to_messages input = [m] →
  invoke app input s = (Ok state', s') →
  completed m s state' s'.
Proof.
  intros Hin Hrun. rewrite invoke_app, Hin in Hrun.
  pose proof (run_from_one_turn m s) as Hshape. by rewrite Hrun in Hshape.
Qed.

Lemma run_total (input : Messages) (m : BaseMessage) (s : process) :
  convert_to_messages input = [m] →
  always_replies →
  ∃ state' s', invoke app input s = (Ok state', s').
Proof.
  intros Hin Hreplies. rewrite invoke_app, Hin.
  pose proof (run_from_one_turn m s) as Hshape.
  destruct (pregel_loop graph 25 GENERATE [m] s) as [[state'|e] s']; [by eauto|].
  destruct Hshape as (prompt & w & detail & w' & evs & Hfail & _).
  destruct (Hreplies (model llm) prompt w) as (text & w'' & Hreply). congruence.
Qed.

(** From the generation node, a conversation that is at most [2 * k] turns
    short of 6 needs at most [2 * k + 1] steps: the loop never runs into the
    recursion limit, it either returns a conversation longer than 6 turns or
    raises the failure of a model call. *)
Lemma loop_outcome (k : nat) :
  ∀ (limit : nat) (state : list BaseMessage) (s : process),
    6 ≤ length state + 2 * k →
    2 * k + 1 ≤ limit →
    match (pregel_loop graph limit GENERATE state s).1 with
    | Ok state' => 6 < length state'
    | Raise e => ∃ detail, e = RemoteError detail
    end.
Proof.
  induction k as [|k IH]; intros limit state s Hlen Hlimit.
  - destruct limit as [|limit]; [lia|].
    rewrite loop_generate, superstep_generate.
    destruct (remote _ _ _) as [[text|detail] w1]; [|cbn; by eauto].
    rewrite decide_True by (rewrite length_app; cbn; lia).
    cbn. rewrite length_app. cbn. lia.
  - destruct limit as [|[|limit]]; [lia..|].
    rewrite loop_generate, superstep_generate.
    destruct (remote _ _ _) as [[text|detail] w1]; [|cbn; by eauto].
    destruct (decide (6 < length (state ++ [AIMessage text]))) as [Hend|Hgo]; [by cbn|].
    rewrite loop_reflect, superstep_reflect. cbn [world extend].
    destruct (remote _ _ _) as [[critique|detail] w2]; [|cbn; by eauto].
    apply IH; [|lia]. rewrite !length_app. cbn. lia.
Qed.

Lemma invoke_outcome (input : Messages) (s : process) :
  match (invoke app input s).1 with
  | Ok state' => 6 < length state'
  | Raise e => ∃ detail, e = RemoteError detail
  end.
Proof. rewrite invoke_app. apply (loop_outcome 3); lia. Qed.

(** ** The loop controller *)

(** C2. The loop controller is a state machine.  A run starts at the
    generation node.  Right after a generation step the run ends when, and
    only when, the conversation is longer than 6 turns; otherwise the
    reflection node runs next.  After a reflection step the generation node
    always runs next: the successor of the reflection node is never the end
    of the graph.  No run leaves the machine through the recursion limit:
    it returns a conversation longer than 6 turns, or a model call failed. *)
Theorem loop_controller_state_machine :
  entry_point (builder app) = Some GENERATE
  ∧ (∀ input s,
       invoke app input s =
       pregel_loop graph (recursion_limit app) GENERATE (convert_to_messages input) s)
  ∧ (∀ limit state s,
       pregel_loop graph (S limit) GENERATE state s =
       match superstep graph GENERATE state s with
       | (Ok state', s') =>
           if decide (6 < length state') then (Ok state', s')
           else pregel_loop graph limit REFLECT state' s'
       | (Raise e, s') => (Raise e, s')
       end)
  ∧ (∀ limit state s,
       pregel_loop graph (S limit) REFLECT state s =
       match superstep graph REFLECT state s with
       | (Ok state', s') => pregel_loop graph limit GENERATE state' s'
       | (Raise e, s') => (Raise e, s')
       end)
  ∧ (∀ state, successor graph GENERATE state = Some END ↔ 6 < length state)
  ∧ (∀ state, successor graph GENERATE state = Some REFLECT ↔ ¬ 6 < length state)
  ∧ (∀ state, successor graph REFLECT state = Some GENERATE)
  ∧ (∀ state, successor graph REFLECT state ≠ Some END)
  ∧ (∀ input s,
       match (invoke app input s).1 with
       | Ok state' => 6 < length state'
       | Raise e => ∃ detail, e = RemoteError detail
       end).
Proof.
  split; [reflexivity|]. split; [by intros; apply invoke_app|].
  split; [by intros; apply loop_generate|].
  split; [by intros; apply loop_reflect|].
  split; [|split; [|split; [|split]]].
  - intros state. rewrite successor_generate. unfold should_continue.
    destruct (decide (6 < length state)); split; done.
  - intros state. rewrite successor_generate. unfold should_continue.
    destruct (decide (6 < length state)); split; done.
  - apply successor_reflect.
  - intros state. by rewrite successor_reflect.
  - apply invoke_outcome.
Qed.

(** ** The two steps append exactly one turn *)

Lemma superstep_appends (node : string) (state : list BaseMessage) (s : process)
    (state' : list BaseMessage) (s' : process) :
  node = GENERATE ∨ node = REFLECT →
  superstep graph node state s = (Ok state', s') →
  ∃ turn, state' = state ++ [turn].
Proof.
  intros [-> | ->] Hstep.
  - rewrite superstep_generate in Hstep.
    destruct (remote _ _ _) as [[text|detail] w']; [|done].
    injection Hstep as <- _. eauto.
  - rewrite superstep_reflect in Hstep.
    destruct (remote _ _ _) as [[text|detail] w']; [|done].
    injection Hstep as <- _. eauto.
Qed.

(** C3. Each step of either node, generation or reflection, makes the
    conversation exactly one turn longer; and along any run, of any length
    and from either node, the conversation lengths recorded after the
    successive updates are consecutive numbers starting one above the
    length the run was given. *)
Theorem conversation_grows_by_one (node : string) (state : list BaseMessage)
    (s : process) :
  node = GENERATE ∨ node = REFLECT →
  (∀ state' s', superstep graph node state s = (Ok state', s') →
                length state' = length state + 1)
  ∧ (∀ limit, ∃ w' evs,
       (pregel_loop graph limit node state s).2 = extend s w' evs
       ∧ update_lengths evs = seq (length state + 1) (length (update_lengths evs))).
Proof.
  intros Hnode. split.
  - intros state' s' Hstep.
    destruct (superstep_appends node state s state' s' Hnode Hstep) as [turn ->].
    by rewrite length_app.
  - intros limit.
    destruct (loop_invariant limit node state s Hnode) as (w' & evs & Hs & _ & Hlen & _).
    exists w', evs. by rewrite Nat.add_1_r.
Qed.

(** C4. A step of either node keeps every earlier turn, unchanged and at
    the same position: the conversation before the step is a prefix of the
    conversation after it, which has one more turn at its end.  The same
    holds across a whole run. *)
Theorem prior_turns_are_preserved (node : string) (state : list BaseMessage)
    (s : process) :
  node = GENERATE ∨ node = REFLECT →
  (∀ state' s', superstep graph node state s = (Ok state', s') →
     take (length state) state' = state
     ∧ (∀ i turn, state !! i = Some turn → state' !! i = Some turn)
     ∧ ∃ turn, state' = state ++ [turn])
  ∧ (∀ limit state' s', pregel_loop graph limit node state s = (Ok state', s') →
       state `prefix_of` state'
       ∧ ∀ i turn, state !! i = Some turn → state' !! i = Some turn).
Proof.
  intros Hnode. split.
  - intros state' s' Hstep.
    destruct (superstep_appends node state s state' s' Hnode Hstep) as [turn ->].
    split; [by rewrite take_app_length|]. split; [|by eauto].
    intros i old Hi. by apply lookup_app_l_Some.
  - intros limit state' s' Hrun.
    destruct (loop_invariant limit node state s Hnode) as (_ & _ & _ & _ & _ & Hpre).
    assert (state `prefix_of` state') as Hprefix by (apply Hpre; by rewrite Hrun).
    split; [done|]. intros i old Hi. by eapply prefix_lookup_Some.
Qed.

(** C5. The reflection step re-tags the reply of the model as a human turn:
    the reply of the reflection chain is an assistant message, and the one
    turn the step appends has the human role and exactly the content of
    that reply.  The generation step appends the reply of its chain as it
    is, an assistant message.  When the chain raises, so does the step. *)
Theorem reflection_retags_reply (state : list BaseMessage) (s : process) :
  match chain_invoke reflection_chain {[ "messages" := state ]} s with
  | (Ok reply, s1) =>
      msg_type reply = AI
      ∧ reflect_node state s = (Ok (Many [mkMessage Human (content reply)]), s1)
      ∧ superstep graph REFLECT state s =
          (Ok (state ++ [mkMessage Human (content reply)]),
           extend s1 (world s1)
             [Update REFLECT (state ++ [mkMessage Human (content reply)])])
  | (Raise e, s1) => superstep graph REFLECT state s = (Raise e, s1)
  end
  ∧
  match chain_invoke generation_chain {[ "messages" := state ]} s with
  | (Ok reply, s1) =>
      msg_type reply = AI
      ∧ generate_node state s = (Ok (One reply), s1)
      ∧ superstep graph GENERATE state s =
          (Ok (state ++ [reply]), extend s1 (world s1) [Update GENERATE (state ++ [reply])])
  | (Raise e, s1) => superstep graph GENERATE state s = (Raise e, s1)
  end.
Proof.
  split.
  - rewrite superstep_reflect, reflect_node_eq.
    unfold reflection_chain, reflection_prompt. rewrite chain_invoke_eq, llm_invoke_eq.
    destruct (remote _ _ _) as [[text|detail] w']; [|done].
    repeat split. cbn [world extend]. by rewrite extend_extend.
  - rewrite superstep_generate, generate_node_eq.
    unfold generation_chain, generation_prompt. rewrite chain_invoke_eq, llm_invoke_eq.
    destruct (remote _ _ _) as [[text|detail] w']; [|done].
    repeat split. cbn [world extend]. by rewrite extend_extend.
Qed.

(** ** Counting the calls of a run *)

(** C1, as the code has it.  A run that starts from a conversation of
    exactly one turn, with the cutoff at 6, makes exactly 4 generation calls
    and 3 reflection calls before it ends: whenever the run returns, those
    are the requests it has added to the trace, and it does return when the
    remote endpoint answers every request. *)
Theorem one_turn_run_makes_four_and_three (input : Messages) (m : BaseMessage)
    (s : process) :
  convert_to_messages input = [m] →
  (always_replies → ∃ state' s', invoke app input s = (Ok state', s'))
  ∧ (∀ state' s', invoke app input s = (Ok state', s') →
       count_events (is_call_with generation_system) (trace s')
       = count_events (is_call_with generation_system) (trace s) + 4
       ∧ count_events (is_call_with reflection_system) (trace s')
         = count_events (is_call_with reflection_system) (trace s) + 3).
Proof.
  intros Hin. split; [by apply (run_total input m)|].
  intros state' s' Hrun.
  destruct (run_completed input m s state' s' Hin Hrun)
    as (t1 & t2 & t3 & t4 & t5 & t6 & t7 & w' & evs & _ & -> & Hgen & Hrefl & _).
  cbn [trace extend]. by rewrite !count_events_app, Hgen, Hrefl.
Qed.

(** C8. A run that starts from a conversation of exactly one turn and in
    which every model call succeeds ends with a conversation of exactly 8
    turns, after 4 generation steps and 3 reflection steps; the conversation
    has 2, 4, 6 and 8 turns after the generation steps and 3, 5 and 7 turns
    after the reflection steps, so the test [len > 6] first succeeds at 8. *)
Theorem one_turn_run_ends_with_eight_turns (input : Messages) (m : BaseMessage)
    (s : process) :
  convert_to_messages input = [m] →
  (always_replies → ∃ state' s', invoke app input s = (Ok state', s'))
  ∧ (∀ state' s', invoke app input s = (Ok state', s') →
       length state' = 8
       ∧ state' !! 0 = Some m
       ∧ model_calls (trace s') = model_calls (trace s) + 7
       ∧ count_events (is_update_of GENERATE) (trace s')
         = count_events (is_update_of GENERATE) (trace s) + 4
       ∧ count_events (is_update_of REFLECT) (trace s')
         = count_events (is_update_of REFLECT) (trace s) + 3
       ∧ lengths_after GENERATE (trace s') = lengths_after GENERATE (trace s) ++ [2; 4; 6; 8]
       ∧ lengths_after REFLECT (trace s') = lengths_after REFLECT (trace s) ++ [3; 5; 7]).
Proof.
  intros Hin. split; [by apply (run_total input m)|].
  intros state' s' Hrun.
  destruct (run_completed input m s state' s' Hin Hrun)
    as (t1 & t2 & t3 & t4 & t5 & t6 & t7 & w' & evs & -> & -> & _ & _
        & Hcalls & Hgen & Hrefl & Hlg & Hlr & _).
  cbn [trace extend]. unfold model_calls in *.
  rewrite !count_events_app, !lengths_after_app, Hcalls, Hgen, Hrefl, Hlg, Hlr.
  by repeat split.
Qed.

(** ** Failures *)

Lemma failure_is_terminal (limit : nat) (state : list BaseMessage) (s : process)
    (detail : string) (w' : W) :
  (remote (model llm) (prompt_of generation_system state) (world s) = (inr detail, w') →
   pregel_loop graph (S limit) GENERATE state s =
   (Raise (RemoteError detail),
    extend s w' [Invoke (model llm) (prompt_of generation_system state)]))
  ∧ (remote (model llm) (prompt_of reflection_system state) (world s) = (inr detail, w') →
     pregel_loop graph (S limit) REFLECT state s =
     (Raise (RemoteError detail),
      extend s w' [Invoke (model llm) (prompt_of reflection_system state)])).
Proof.
  split; intros Hfail.
  - by rewrite loop_generate, superstep_generate, Hfail.
  - by rewrite loop_reflect, superstep_reflect, Hfail.
Qed.

(** The script as a whole: with the credential in place, both clients built
    and the first call of the model failing, the process ends on that
    exception after the three start-up prints and the one call; the
    conversation is never printed. *)
Lemma script_aborts_on_first_failure (w : W) (env dotenv : gmap string string)
    (key detail : string) (w1 w2 w' : W) :
  (env ∪ dotenv) !! "GOOGLE_API_KEY" = Some key →
  client_init "gemini-2.5-pro" (env ∪ dotenv) w = (None, w1) →
  client_init "gemini-2.5-pro" (env ∪ dotenv) w1 = (None, w2) →
  remote (model llm) (prompt_of generation_system [topic]) w2 = (inr detail, w') →
  basic_py (startup w env dotenv) =
  (Raise (RemoteError detail),
   mkProcess w' (env ∪ dotenv) dotenv
     [ Print (Text ("GOOGLE_API_KEY loaded: " +:+ key)); Print Mermaid; Print Ascii;
       Invoke (model llm) (prompt_of generation_system [topic]) ]).
Proof.
  intros Hkey Hfirst Hsecond Hfail. rewrite basic_py_eq.
  cbn [startup environ dotenv_file world trace].
  rewrite Hkey, Hfirst, Hsecond, app_nil_l.
  rewrite invoke_app. cbn [convert_to_messages].
  destruct (failure_is_terminal 24 [topic]
              (mkProcess w2 (env ∪ dotenv) dotenv
                 [ Print (Text ("GOOGLE_API_KEY loaded: " +:+ key));
                   Print Mermaid; Print Ascii ]) detail w') as [Hgen _].
  by rewrite (Hgen Hfail).
Qed.

(** C7. When the remote call of the first generation step fails, the run
    raises that very failure, the trace gains the one refused request and
    nothing else (no second attempt, no reflection call, no update of the
    conversation), and the outcome is an exception, which carries no
    conversation.  Nor does any later step recover: from either node, a
    refused request ends the loop at once with the diagnostic it came
    with. *)
Theorem first_generation_failure_aborts (input : Messages) (s : process)
    (detail : string) (w' : W) :
  remote (model llm) (prompt_of generation_system (convert_to_messages input)) (world s)
  = (inr detail, w') →
  invoke app input s =
    (Raise (RemoteError detail),
     extend s w'
       [Invoke (model llm) (prompt_of generation_system (convert_to_messages input))])
  ∧ is_ok (invoke app input s).1 = false
  ∧ model_calls (trace (invoke app input s).2) = model_calls (trace s) + 1
  ∧ count_events (is_call_with reflection_system) (trace (invoke app input s).2)
    = count_events (is_call_with reflection_system) (trace s)
  ∧ update_lengths (trace (invoke app input s).2) = update_lengths (trace s)
  ∧ (∀ limit state s0 detail0 w0,
       (remote (model llm) (prompt_of generation_system state) (world s0) = (inr detail0, w0) →
        pregel_loop graph (S limit) GENERATE state s0 =
        (Raise (RemoteError detail0),
         extend s0 w0 [Invoke (model llm) (prompt_of generation_system state)]))
       ∧ (remote (model llm) (prompt_of reflection_system state) (world s0) = (inr detail0, w0) →
          pregel_loop graph (S limit) REFLECT state s0 =
          (Raise (RemoteError detail0),
           extend s0 w0 [Invoke (model llm) (prompt_of reflection_system state)]))).
Proof.
  intros Hfail.
  assert (invoke app input s =
          (Raise (RemoteError detail),
           extend s w'
             [Invoke (model llm) (prompt_of generation_system (convert_to_messages input))]))
    as Hrun.
  { rewrite invoke_app. by apply failure_is_terminal. }
  rewrite Hrun. cbn [fst snd trace extend is_ok]. unfold model_calls.
  rewrite !count_events_app, update_lengths_app.
  split; [done|]. split; [done|]. split; [done|].
  split; [|split].
  - assert (count_events (is_call_with reflection_system)
              [Invoke (model llm) (prompt_of generation_system (convert_to_messages input))] = 0)
      as -> by (vm_compute; reflexivity).
    by rewrite Nat.add_0_r.
  - cbn. by rewrite app_nil_r.
  - intros limit state s0 detail0 w0. apply failure_is_terminal.
Qed.

(** C6, as the code has it.  When the credential is neither in the process
    environment at startup nor supplied by the [.env] file, the script fails
    at the check of [chains.py], before anything is printed and before any
    model call: the trace of the failed process is empty and the remote
    endpoint has not been touched. *)
Theorem missing_credential_is_fatal (w : W) (env dotenv : gmap string string) :
  env !! "GOOGLE_API_KEY" = None →
  dotenv !! "GOOGLE_API_KEY" = None →
  basic_py (startup w env dotenv) =
    (Raise (AssertionError "GOOGLE_API_KEY not loaded from .env!"),
     mkProcess w (env ∪ dotenv) dotenv [])
  ∧ model_calls (trace (basic_py (startup w env dotenv)).2) = 0.
Proof.
  intros Henv Hfile.
  assert (basic_py (startup w env dotenv) =
          (Raise (AssertionError "GOOGLE_API_KEY not loaded from .env!"),
           mkProcess w (env ∪ dotenv) dotenv [])) as Hrun.
  { rewrite basic_py_eq. cbn [startup environ dotenv_file world trace].
    assert ((env ∪ dotenv) !! "GOOGLE_API_KEY" = None) as ->
      by (by apply lookup_union_None).
    reflexivity. }
  by rewrite Hrun.
Qed.

(** C9. Whenever the credential is present at startup (inherited from the
    process environment or loaded from the [.env] file), the first thing
    the process does that can be observed is to print its value in clear on
    standard output.  The line comes before the client is constructed, hence
    before the renderings of the graph and before every call of the model,
    and it is printed whether or not the client then accepts the credential.
    The same value is what the script, when it gets that far, wraps in a
    [SecretStr], whose own display is masked. *)
Theorem credential_is_printed_in_clear (w : W) (env dotenv : gmap string string)
    (key : string) :
  (env ∪ dotenv) !! "GOOGLE_API_KEY" = Some key →
  (∃ evs,
     trace (basic_py (startup w env dotenv)).2 =
       Print (Text ("GOOGLE_API_KEY loaded: " +:+ key)) :: evs
     ∧ model_calls (trace (basic_py (startup w env dotenv)).2) = model_calls evs)
  ∧ (∀ g, (basic_py (startup w env dotenv)).1 = Ok g →
       GOOGLE_API_KEY g = mkSecretStr key
       ∧ api_key_str g = key
       ∧ (key ≠ "" → SecretStr_display (GOOGLE_API_KEY g) = "**********")).
Proof.
  intros Hkey.
  destruct (script_shape w env dotenv key Hkey) as (w' & evs & _ & Hshape).
  destruct (basic_py (startup w env dotenv)) as [[g|e] s'].
  - destruct Hshape as (Hg & _ & _ & ->). split; [by eexists|].
    intros g' [= <-]. rewrite Hg. repeat split. cbn. intros Hne. by destruct key.
  - split; [|by intros g [=]].
    destruct e; try (destruct Hshape as (_ & ->); by eexists).
Qed.

(** ** Runs from an arbitrary conversation *)

Lemma length_alternating (k : nat) (r : role) : length (alternating k r) = k.
Proof. revert r. induction k as [|k IH]; intros r; cbn; [done|]. by rewrite IH. Qed.

Lemma rounds_spec (n : nat) :
  6 ≤ n + 2 * rounds n ∧ (rounds n = 0 ∨ n + 2 * rounds n ≤ 7) ∧ 2 * rounds n + 1 ≤ 25.
Proof.
  unfold rounds.
  destruct (decide (7 ≤ n)) as [Hbig|Hsmall].
  - replace (7 - n) with 0 by lia. cbn. lia.
  - do 7 (destruct n as [|n]; [cbn; lia|]). lia.
Qed.

Lemma generation_step_calls (preamble : string) (state state' : list BaseMessage) :
  count_events (is_call_with preamble)
    [Invoke (model llm) (prompt_of generation_system state); Update GENERATE state']
  = if bool_decide (preamble = generation_system) then 1 else 0.
Proof.
  unfold count_events, prompt_of. cbn.
  destruct (decide (preamble = generation_system)) as [->|Hne].
  - by rewrite !bool_decide_eq_true_2.
  - rewrite !bool_decide_eq_false_2; [done..|]. by intros [= <-].
Qed.

Lemma reflection_step_calls (preamble : string) (state state' : list BaseMessage) :
  count_events (is_call_with preamble)
    [Invoke (model llm) (prompt_of reflection_system state); Update REFLECT state']
  = if bool_decide (preamble = reflection_system) then 1 else 0.
Proof.
  unfold count_events, prompt_of. cbn.
  destruct (decide (preamble = reflection_system)) as [->|Hne].
  - by rewrite !bool_decide_eq_true_2.
  - rewrite !bool_decide_eq_false_2; [done..|]. by intros [= <-].
Qed.

Lemma preambles_differ : generation_system ≠ reflection_system.
Proof. intros Heq. vm_compute in Heq. discriminate Heq. Qed.

(** A run from the generation node that needs [j] reflection steps. *)
Lemma loop_rounds (j : nat) :
  ∀ (limit : nat) (state : list BaseMessage) (s : process),
    6 ≤ length state + 2 * j →
    (j = 0 ∨ length state + 2 * j ≤ 7) →
    2 * j + 1 ≤ limit →
    ∀ state' s',
      pregel_loop graph limit GENERATE state s = (Ok state', s') →
      ∃ new text w' evs,
        state' = state ++ new
        ∧ list.last state' = Some (AIMessage text)
        ∧ msg_type <$> new = alternating (2 * j + 1) AI
        ∧ s' = extend s w' evs
        ∧ count_events (is_call_with generation_system) evs = j + 1
        ∧ count_events (is_call_with reflection_system) evs = j.
Proof.
  induction j as [|j IH]; intros limit state s Hlen Hmin Hlimit state' s' Hrun.
  - destruct limit as [|limit]; [lia|].
    rewrite loop_generate, superstep_generate in Hrun.
    destruct (remote _ _ _) as [[text|detail] w1]; [|done].
    assert (length (state ++ [AIMessage text]) = S (length state)) as Hgrown
      by (rewrite length_app; cbn; lia).
    rewrite decide_True in Hrun by lia.
    injection Hrun as <- <-.
    exists [AIMessage text], text, w1. eexists.
    split; [done|]. split; [by rewrite last_snoc|]. split; [done|].
    split; [reflexivity|]. split; vm_compute; reflexivity.
  - destruct limit as [|[|limit]]; [lia..|].
    rewrite loop_generate, superstep_generate in Hrun.
    destruct (remote _ _ _) as [[text|detail] w1]; [|done].
    assert (length (state ++ [AIMessage text]) = S (length state)) as Hgrown
      by (rewrite length_app; cbn; lia).
    rewrite decide_False in Hrun by lia.
    rewrite loop_reflect, superstep_reflect in Hrun. cbn [world extend] in Hrun.
    destruct (remote _ _ _) as [[critique|detail] w2]; [|done].
    rewrite extend_extend in Hrun.
    apply IH in Hrun; [| rewrite ?length_app; cbn; lia ..].
    destruct Hrun as (new & final & w' & evs & -> & Hlast & Hroles & -> & Hgen & Hrefl).
    exists ([AIMessage text; HumanMessage critique] ++ new), final, w'. eexists.
    split; [by rewrite <- !app_assoc|]. split; [done|].
    split.
    { rewrite fmap_app, Hroles.
      replace (2 * S j + 1) with (S (S (2 * j + 1))) by lia. reflexivity. }
    rewrite extend_extend. split; [reflexivity|].
    split;
      rewrite !count_events_app, ?Hgen, ?Hrefl, !generation_step_calls, !reflection_step_calls;
      repeat case_bool_decide; try done; try lia; by destruct preambles_differ.
Qed.

Lemma carries_request (input state : list BaseMessage) (preamble : string) :
  preamble = generation_system ∨ preamble = reflection_system →
  input `prefix_of` state →
  carries input (Invoke (model llm) (prompt_of preamble state)).
Proof. intros Hpre Hin. split; [done|]. by exists preamble, state. Qed.

(** Requests and updates along a run, of any length and from either node:
    every request carries the conversation the run was given, and each
    request is paid for by one update, except a refused request, which is
    the last event of the run. *)
Lemma loop_requests (limit : nat) :
  ∀ (node : string) (input state : list BaseMessage) (s : process),
    node = GENERATE ∨ node = REFLECT →
    input `prefix_of` state →
    ∃ w' evs,
      (pregel_loop graph limit node state s).2 = extend s w' evs
      ∧ Forall (carries input) evs
      ∧ model_calls evs
        = length (update_lengths evs)
          + (if is_remote_error (pregel_loop graph limit node state s).1 then 1 else 0).
Proof.
  induction limit as [|limit IH]; intros node input state s Hnode Hin.
  - exists (world s), []. rewrite extend_nil. by repeat split.
  - destruct Hnode as [-> | ->].
    + rewrite loop_generate, superstep_generate.
      destruct (remote _ _ _) as [[text|detail] w1] eqn:E.
      2: { eexists _, _. split; [reflexivity|]. split; [|done].
           apply Forall_singleton, carries_request; [by left|done]. }
      assert (Forall (carries input)
                [ Invoke (model llm) (prompt_of generation_system state);
                  Update GENERATE (state ++ [AIMessage text]) ]) as Hstep.
      { apply Forall_cons. split; [by apply carries_request; [left|]|].
        by apply Forall_singleton. }
      destruct (decide (6 < length (state ++ [AIMessage text]))) as [Hend|Hgo].
      { eexists _, _. by split; [reflexivity|]. }
      destruct (IH REFLECT input (state ++ [AIMessage text])
                  (extend s w1 [ Invoke (model llm) (prompt_of generation_system state);
                                 Update GENERATE (state ++ [AIMessage text]) ]))
        as (w' & evs & Hs & Hcarry & Hcalls);
        [by right | by etrans; [exact Hin | apply prefix_app_r] |].
      eexists w', _. rewrite Hs, extend_extend. split; [reflexivity|].
      split; [by apply Forall_app|].
      unfold model_calls in *.
      rewrite count_events_app, update_lengths_app, length_app, Hcalls. cbn. lia.
    + rewrite loop_reflect, superstep_reflect.
      destruct (remote _ _ _) as [[text|detail] w1] eqn:E.
      2: { eexists _, _. split; [reflexivity|]. split; [|done].
           apply Forall_singleton, carries_request; [by right|done]. }
      assert (Forall (carries input)
                [ Invoke (model llm) (prompt_of reflection_system state);
                  Update REFLECT (state ++ [HumanMessage text]) ]) as Hstep.
      { apply Forall_cons. split; [by apply carries_request; [right|]|].
        by apply Forall_singleton. }
      destruct (IH GENERATE input (state ++ [HumanMessage text])
                  (extend s w1 [ Invoke (model llm) (prompt_of reflection_system state);
                                 Update REFLECT (state ++ [HumanMessage text]) ]))
        as (w' & evs & Hs & Hcarry & Hcalls);
        [by left | by etrans; [exact Hin | apply prefix_app_r] |].
      eexists w', _. rewrite Hs, extend_extend. split; [reflexivity|].
      split; [by apply Forall_app|].
      unfold model_calls in *.
      rewrite count_events_app, update_lengths_app, length_app, Hcalls. cbn. lia.
Qed.

(** The budget of a run from the generation node: at most [2 * j + 1]
    requests when the conversation is at most [2 * j] turns short of 6. *)
Lemma loop_budget (j : nat) :
  ∀ (limit : nat) (state : list BaseMessage) (s : process),
    6 ≤ length state + 2 * j →
    2 * j + 1 ≤ limit →
    ∃ w' evs,
      (pregel_loop graph limit GENERATE state s).2 = extend s w' evs
      ∧ model_calls evs ≤ 2 * j + 1.
Proof.
  unfold model_calls.
  induction j as [|j IH]; intros limit state s Hlen Hlimit.
  - destruct limit as [|limit]; [lia|].
    rewrite loop_generate, superstep_generate.
    destruct (remote _ _ _) as [[text|detail] w1]; [|by eexists _, _].
    assert (length (state ++ [AIMessage text]) = S (length state)) as Hgrown
      by (rewrite length_app; cbn; lia).
    rewrite decide_True by lia. by eexists _, _.
  - destruct limit as [|[|limit]]; [lia..|].
    rewrite loop_generate, superstep_generate.
    destruct (remote _ _ _) as [[text|detail] w1]; [|eexists _, _; split; [done|cbn; lia]].
    destruct (decide (6 < length (state ++ [AIMessage text]))) as [Hend|Hgo];
      [eexists _, _; split; [done|cbn; lia]|].
    rewrite loop_reflect, superstep_reflect. cbn [world extend].
    destruct (remote _ _ _) as [[critique|detail] w2].
    2: { rewrite extend_extend. eexists _, _. split; [done|cbn; lia]. }
    rewrite extend_extend.
    destruct (IH limit ((state ++ [AIMessage text]) ++ [HumanMessage critique])
                (extend s w2
                   ([ Invoke (model llm) (prompt_of generation_system state);
                      Update GENERATE (state ++ [AIMessage text]) ]
                    ++ [ Invoke (model llm)
                           (prompt_of reflection_system (state ++ [AIMessage text]));
                         Update REFLECT
                           ((state ++ [AIMessage text]) ++ [HumanMessage critique]) ])))
      as (w' & evs & Hs & Hcalls); [rewrite !length_app; cbn; lia | lia |].
    eexists w', _. rewrite Hs, extend_extend. split; [reflexivity|].
    rewrite !count_events_app. cbn. lia.
Qed.

Lemma quiet_events (evs : list event) :
  count_events is_print evs = 0 → List.filter is_print evs = [].
Proof. unfold count_events. by intros ?%nil_length_inv. Qed.

(** ** Further properties of the loop *)

(** X1. The number of rounds is fixed by the length of the input alone.  A
    run that returns, given a conversation of [n] turns, has gone through
    [rounds n] reflection calls and one more generation call, and returns
    [n + 2 * rounds n + 1] turns: 7 turns for an input of 0, 2 or 4 turns, 8
    turns for 1, 3 or 5, and [n + 1] from 6 turns on. *)
Theorem rounds_depend_on_input_length (input : Messages) (s : process)
    (state' : list BaseMessage) (s' : process) :
  invoke app input s = (Ok state', s') →
  length state'
  = length (convert_to_messages input) + 2 * rounds (length (convert_to_messages input)) + 1
  ∧ count_events (is_call_with generation_system) (trace s')
    = count_events (is_call_with generation_system) (trace s)
      + rounds (length (convert_to_messages input)) + 1
  ∧ count_events (is_call_with reflection_system) (trace s')
    = count_events (is_call_with reflection_system) (trace s)
      + rounds (length (convert_to_messages input)).
Proof.
  intros Hrun. rewrite invoke_app in Hrun.
  destruct (rounds_spec (length (convert_to_messages input))) as (Hlen & Hmin & Hlimit).
  destruct (loop_rounds _ _ _ _ Hlen Hmin Hlimit _ _ Hrun)
    as (new & text & w' & evs & -> & _ & Hroles & -> & Hgen & Hrefl).
  split.
  - rewrite length_app, <- (length_fmap msg_type new), Hroles, length_alternating. lia.
  - cbn [trace extend]. rewrite !count_events_app, Hgen, Hrefl. lia.
Qed.

(** X2. An input of six turns or more gets a single generation call and no
    critique: the run is that one request, and its result, when the request
    is answered, is the input with the reply appended. *)
Theorem long_input_gets_one_generation (input : Messages) (s : process) :
  6 ≤ length (convert_to_messages input) →
  invoke app input s =
  match remote (model llm) (prompt_of generation_system (convert_to_messages input))
          (world s) with
  | (inl text, w') =>
      (Ok (convert_to_messages input ++ [AIMessage text]),
       extend s w'
         [ Invoke (model llm) (prompt_of generation_system (convert_to_messages input));
           Update GENERATE (convert_to_messages input ++ [AIMessage text]) ])
  | (inr detail, w') =>
      (Raise (RemoteError detail),
       extend s w'
         [Invoke (model llm) (prompt_of generation_system (convert_to_messages input))])
  end.
Proof.
  intros Hlong. rewrite invoke_app, loop_generate, superstep_generate.
  destruct (remote _ _ _) as [[text|detail] w']; [|done].
  rewrite decide_True; [done|]. rewrite length_app. cbn. lia.
Qed.

(** X3. What a run returns is the input followed by turns that alternate
    between assistant and human, assistant first and assistant last: the
    final turn of every returned conversation is a draft of the model, never
    a critique. *)
Theorem returned_turns_alternate (input : Messages) (s : process)
    (state' : list BaseMessage) (s' : process) :
  invoke app input s = (Ok state', s') →
  msg_type <$> state'
  = (msg_type <$> convert_to_messages input)
    ++ alternating (2 * rounds (length (convert_to_messages input)) + 1) AI
  ∧ convert_to_messages input `prefix_of` state'
  ∧ ∃ text, list.last state' = Some (AIMessage text).
Proof.
  intros Hrun. rewrite invoke_app in Hrun.
  destruct (rounds_spec (length (convert_to_messages input))) as (Hlen & Hmin & Hlimit).
  destruct (loop_rounds _ _ _ _ Hlen Hmin Hlimit _ _ Hrun)
    as (new & text & w' & evs & -> & Hlast & Hroles & _).
  split; [by rewrite fmap_app, Hroles|]. split; [by apply prefix_app_r|]. by exists text.
Qed.


(** X5. The loop never calls the model client twice for one step.  Along a
    run every call of the client that returns is followed by exactly one
    update of the conversation, so calls and updates are equally many; a run
    that ends on a call that raised has made one call more, the one that
    raised.  (What the client sends on the wire to carry out one call,
    re-sending included, is inside the call and is not counted.) *)
Theorem one_client_call_per_update (input : Messages) (s : process) :
  ∃ w' evs,
    (invoke app input s).2 = extend s w' evs
    ∧ model_calls evs
      = length (update_lengths evs)
        + (if is_remote_error (invoke app input s).1 then 1 else 0).
Proof.
  rewrite invoke_app.
  destruct (loop_requests 25 GENERATE (convert_to_messages input)
              (convert_to_messages input) s) as (w' & evs & Hs & _ & Hcalls);
    [by left | done |].
  by exists w', evs.
Qed.

(** X6. The number of calls of the model client in a run is bounded:
    whatever the input and whatever the calls return, a run calls the client
    at most [2 * rounds n + 1] times for an input of [n] turns, hence never
    more than 7 times.  (The bound is on calls of [llm.invoke]; how many
    requests the client sends for one call is its own affair.) *)
Theorem run_makes_at_most_seven_calls (input : Messages) (s : process) :
  ∃ w' evs,
    (invoke app input s).2 = extend s w' evs
    ∧ model_calls evs ≤ 2 * rounds (length (convert_to_messages input)) + 1
    ∧ model_calls evs ≤ 7.
Proof.
  rewrite invoke_app.
  destruct (rounds_spec (length (convert_to_messages input))) as (Hlen & Hmin & Hlimit).
  destruct (loop_budget _ 25 (convert_to_messages input) s Hlen Hlimit)
    as (w' & evs & Hs & Hcalls).
  exists w', evs. split; [done|]. split; [done|].
  lia.
Qed.

(** X7. A run of the graph has no effect but its requests: it leaves the
    environment and the [.env] contents as they were, writes nothing to
    standard output, and only adds to the trace. *)
Theorem run_leaves_process_alone (input : Messages) (s : process) :
  environ (invoke app input s).2 = environ s
  ∧ dotenv_file (invoke app input s).2 = dotenv_file s
  ∧ List.filter is_print (trace (invoke app input s).2) = List.filter is_print (trace s)
  ∧ trace s `prefix_of` trace (invoke app input s).2.
Proof.
  rewrite invoke_app.
  destruct (loop_invariant 25 GENERATE (convert_to_messages input) s)
    as (w' & evs & -> & Hquiet & _); [by left|].
  cbn [extend environ dotenv_file trace]. split; [done|]. split; [done|].
  split; [|by apply prefix_app_r].
  by rewrite List.filter_app, (quiet_events evs Hquiet), app_nil_r.
Qed.

(** ** Further properties of the script *)


(** X9. However the script ends, the environment it leaves is the startup
    environment completed by the entries of [.env]: loading [.env] a second
    time in [basic.py] changes nothing, and no variable is removed or
    overwritten. *)
Theorem script_leaves_loaded_environment (w : W) (env dotenv : gmap string string) :
  environ (basic_py (startup w env dotenv)).2 = env ∪ dotenv
  ∧ dotenv_file (basic_py (startup w env dotenv)).2 = dotenv
  ∧ ∀ name value, env !! name = Some value →
      environ (basic_py (startup w env dotenv)).2 !! name = Some value.
Proof.
  assert (environ (basic_py (startup w env dotenv)).2 = env ∪ dotenv
          ∧ dotenv_file (basic_py (startup w env dotenv)).2 = dotenv) as [Henv Hfile].
  { destruct ((env ∪ dotenv) !! "GOOGLE_API_KEY") as [key|] eqn:Hkey.
    - destruct (script_shape w env dotenv key Hkey) as (w' & evs & _ & Hshape).
      destruct (basic_py (startup w env dotenv)) as [[g|e] s'].
      + by destruct Hshape as (_ & _ & _ & ->).
      + destruct e; by destruct Hshape as (_ & ->).
    - by rewrite (script_without_credential w env dotenv Hkey). }
  split; [done|]. split; [done|].
  intros name value Hname. rewrite Henv. by apply lookup_union_Some_l.
Qed.


(** X11. A credential that is already in the process environment is the one
    the script uses, whatever the [.env] file says: it is the value printed
    first and the value wrapped in the secret. *)
Theorem environment_wins_over_dotenv (w : W) (env dotenv : gmap string string)
    (key : string) :
  env !! "GOOGLE_API_KEY" = Some key →
  trace (basic_py (startup w env dotenv)).2 !! 0 = Some (credential_line key)
  ∧ ∀ g, (basic_py (startup w env dotenv)).1 = Ok g →
      GOOGLE_API_KEY g = mkSecretStr key ∧ api_key_str g = key.
Proof.
  intros Henv.
  assert ((env ∪ dotenv) !! "GOOGLE_API_KEY" = Some key) as Hkey
    by (by apply lookup_union_Some_l).
  destruct (script_shape w env dotenv key Hkey) as (w' & evs & _ & Hshape).
  destruct (basic_py (startup w env dotenv)) as [[g|e] s'].
  - destruct Hshape as (Hg & _ & _ & ->). split; [done|].
    intros g' [= <-]. by rewrite Hg.
  - split; [|by intros g' [=]]. destruct e; by destruct Hshape as (_ & ->).
Qed.

End Agent.

Arguments process W : clear implicits.

(** ** The theorems at concrete runs *)

(** The endpoint that always answers does, indeed, always answer. *)
Lemma steady_remote_always_replies (reply : string) :
  always_replies (steady_remote reply).
Proof. intros name prompt w. by exists reply, w. Qed.

(** With the cutoff at 6 and a single starting turn, a run against an
    endpoint that always answers makes 4 generation calls and 3 reflection
    calls, not 3 and 2. *)
Lemma three_generations_two_reflections_refuted :
  is_ok (invoke (app (steady_remote "draft")) (One topic)
           (startup () ∅ ∅)).1 = true
  ∧ count_events (is_call_with generation_system)
      (trace (invoke (app (steady_remote "draft")) (One topic)
                (startup () ∅ ∅)).2) = 4
  ∧ count_events (is_call_with reflection_system)
      (trace (invoke (app (steady_remote "draft")) (One topic)
                (startup () ∅ ∅)).2) = 3
  ∧ ¬ (count_events (is_call_with generation_system)
         (trace (invoke (app (steady_remote "draft")) (One topic)
                   (startup () ∅ ∅)).2) = 3
       ∧ count_events (is_call_with reflection_system)
           (trace (invoke (app (steady_remote "draft")) (One topic)
                     (startup () ∅ ∅)).2) = 2).
Proof.
  vm_compute. split; [reflexivity|]. split; [reflexivity|]. split; [reflexivity|].
  intros [Hgen _]. discriminate Hgen.
Qed.

Lemma one_turn_run_makes_four_and_three_witness :
  convert_to_messages (One topic) = [topic]
  ∧ ∃ state' s',
      invoke (app (steady_remote "draft")) (One topic)
        (startup () ∅ ∅) = (Ok state', s')
      ∧ count_events (is_call_with generation_system) (trace s') = 4
      ∧ count_events (is_call_with reflection_system) (trace s') = 3.
Proof.
  split; [reflexivity|].
  destruct (one_turn_run_makes_four_and_three (steady_remote "draft") (One topic) topic
              (startup () ∅ ∅) eq_refl) as [Htotal Hcount].
  destruct (Htotal (steady_remote_always_replies "draft")) as (state' & s' & Hrun).
  exists state', s'. split; [exact Hrun|]. exact (Hcount state' s' Hrun).
Defined.

Lemma one_turn_run_ends_with_eight_turns_witness :
  convert_to_messages (One topic) = [topic]
  ∧ ∃ state' s',
      invoke (app (steady_remote "draft")) (One topic)
        (startup () ∅ ∅) = (Ok state', s')
      ∧ length state' = 8
      ∧ model_calls (trace s') = 7
      ∧ lengths_after GENERATE (trace s') = [2; 4; 6; 8].
Proof.
  split; [reflexivity|].
  destruct (one_turn_run_ends_with_eight_turns (steady_remote "draft") (One topic) topic
              (startup () ∅ ∅) eq_refl) as [Htotal Hshape].
  destruct (Htotal (steady_remote_always_replies "draft")) as (state' & s' & Hrun).
  destruct (Hshape state' s' Hrun) as (Hlen & _ & Hcalls & _ & _ & Hgen & _).
  exists state', s'. split; [exact Hrun|]. split; [exact Hlen|].
  split; [exact Hcalls | exact Hgen].
Defined.

Lemma conversation_grows_by_one_witness :
  (GENERATE = GENERATE ∨ GENERATE = REFLECT)
  ∧ ∃ state' s',
      superstep (graph (steady_remote "draft")) GENERATE [topic] (startup () ∅ ∅)
      = (Ok state', s')
      ∧ length state' = length [topic] + 1.
Proof.
  split; [by left|].
  destruct (conversation_grows_by_one (steady_remote "draft") GENERATE [topic]
              (startup () ∅ ∅) (or_introl eq_refl)) as [Hstep _].
  eexists _, _. split; [vm_compute; reflexivity|]. eapply Hstep. vm_compute. reflexivity.
Defined.

Lemma prior_turns_are_preserved_witness :
  (REFLECT = GENERATE ∨ REFLECT = REFLECT)
  ∧ ∃ state' s',
      superstep (graph (steady_remote "critique")) REFLECT [topic; AIMessage "draft"]
        (startup () ∅ ∅) = (Ok state', s')
      ∧ take 2 state' = [topic; AIMessage "draft"].
Proof.
  split; [by right|].
  destruct (prior_turns_are_preserved (steady_remote "critique") REFLECT
              [topic; AIMessage "draft"] (startup () ∅ ∅) (or_intror eq_refl))
    as [Hstep _].
  eexists _, _. split; [vm_compute; reflexivity|]. eapply Hstep. vm_compute. reflexivity.
Defined.

Lemma first_generation_failure_aborts_witness :
  failing_remote "quota exceeded" (model llm)
    (prompt_of generation_system (convert_to_messages (One topic))) ()
  = (inr "quota exceeded", ())
  ∧ invoke (app (failing_remote "quota exceeded"))
      (One topic) (startup () ∅ ∅)
    = (Raise (RemoteError "quota exceeded"),
       extend (startup () ∅ ∅) ()
         [Invoke (model llm) (prompt_of generation_system [topic])]).
Proof.
  split; [reflexivity|].
  destruct (first_generation_failure_aborts (failing_remote "quota exceeded") (One topic)
              (startup () ∅ ∅) "quota exceeded" () eq_refl) as [Hrun _].
  exact Hrun.
Defined.

(** The credential is absent from the process environment, the [.env] file
    supplies it, and the script runs to its end with seven model calls. *)
Lemma credential_from_dotenv_file_refutes_fatal_absence :
  (∅ : gmap string string) !! "GOOGLE_API_KEY" = None
  ∧ is_ok (basic_py (steady_remote "draft") strict_client
             (startup () ∅ {[ "GOOGLE_API_KEY" := "secret" ]})).1 = true
  ∧ model_calls (trace (basic_py (steady_remote "draft") strict_client
                          (startup () ∅ {[ "GOOGLE_API_KEY" := "secret" ]})).2) = 7.
Proof. vm_compute. by repeat split. Qed.

Lemma missing_credential_is_fatal_witness :
  (∅ : gmap string string) !! "GOOGLE_API_KEY" = None
  ∧ basic_py (steady_remote "draft") strict_client (startup () ∅ ∅)
    = (Raise (AssertionError "GOOGLE_API_KEY not loaded from .env!"),
       mkProcess () (∅ ∪ ∅) ∅ [])
  ∧ model_calls (trace (basic_py (steady_remote "draft") strict_client (startup () ∅ ∅)).2) = 0.
Proof.
  split; [reflexivity|].
  destruct (missing_credential_is_fatal (steady_remote "draft") strict_client () ∅ ∅)
    as [Hrun Hcalls]; [reflexivity | reflexivity |].
  split; [exact Hrun | exact Hcalls].
Defined.

Lemma credential_is_printed_in_clear_witness :
  (({[ "GOOGLE_API_KEY" := "sk-live-123" ]} : gmap string string) ∪ ∅)
    !! "GOOGLE_API_KEY" = Some "sk-live-123"
  ∧ ∃ evs,
      trace (basic_py (steady_remote "draft") strict_client
               (startup () {[ "GOOGLE_API_KEY" := "sk-live-123" ]} ∅)).2
      = Print (Text "GOOGLE_API_KEY loaded: sk-live-123") :: evs.
Proof.
  split; [reflexivity|].
  destruct (credential_is_printed_in_clear (steady_remote "draft") strict_client ()
              {[ "GOOGLE_API_KEY" := "sk-live-123" ]} ∅ "sk-live-123")
    as [(evs & Htrace & _) _]; [reflexivity|].
  eexists. exact Htrace.
Defined.

(** A failure in the middle of a run: the endpoint answers twice and then
    refuses.  The run stops at the third request, the second generation
    call, and raises the diagnostic of that refusal. *)
Example failure_in_second_generation :
  (invoke (app (flaky_remote 2 "network down")) (One topic) (startup 0 ∅ ∅)).1
  = Raise (RemoteError "network down")
  ∧ model_calls
      (trace (invoke (app (flaky_remote 2 "network down")) (One topic) (startup 0 ∅ ∅)).2)
    = 3
  ∧ update_lengths
      (trace (invoke (app (flaky_remote 2 "network down")) (One topic) (startup 0 ∅ ∅)).2)
    = [2; 3].
Proof. vm_compute. by repeat split. Qed.

(** ** The further properties at concrete runs *)

(** An empty input: three rounds of critique, seven turns returned. *)
Lemma rounds_depend_on_input_length_witness :
  ∃ state' s',
    invoke (app (steady_remote "draft")) (Many []) (startup () ∅ ∅) = (Ok state', s')
    ∧ length state' = 7
    ∧ count_events (is_call_with reflection_system) (trace s') = 3.
Proof.
  assert (∃ state' s',
            invoke (app (steady_remote "draft")) (Many []) (startup () ∅ ∅)
            = (Ok state', s')) as (state' & s' & Hrun)
    by (eexists _, _; vm_compute; reflexivity).
  exists state', s'. split; [exact Hrun|].
  destruct (rounds_depend_on_input_length (steady_remote "draft") (Many [])
              (startup () ∅ ∅) state' s' Hrun) as (Hlen & _ & Hrefl).
  split; [exact Hlen | exact Hrefl].
Defined.

(** Six turns given: one request, seven turns returned. *)
Lemma long_input_gets_one_generation_witness :
  6 ≤ length (convert_to_messages (Many (replicate 6 topic)))
  ∧ (invoke (app (steady_remote "draft")) (Many (replicate 6 topic)) (startup () ∅ ∅)).1
    = Ok (replicate 6 topic ++ [AIMessage "draft"])
  ∧ model_calls
      (trace (invoke (app (steady_remote "draft")) (Many (replicate 6 topic))
                (startup () ∅ ∅)).2) = 1.
Proof.
  assert (6 ≤ length (convert_to_messages (Many (replicate 6 topic)))) as Hlong
    by (cbn; lia).
  split; [exact Hlong|].
  rewrite (long_input_gets_one_generation (steady_remote "draft")
             (Many (replicate 6 topic)) (startup () ∅ ∅) Hlong).
  split; reflexivity.
Defined.

Lemma returned_turns_alternate_witness :
  ∃ state' s',
    invoke (app (steady_remote "draft")) (One topic) (startup () ∅ ∅) = (Ok state', s')
    ∧ msg_type <$> state' = [Human; AI; Human; AI; Human; AI; Human; AI].
Proof.
  assert (∃ state' s',
            invoke (app (steady_remote "draft")) (One topic) (startup () ∅ ∅)
            = (Ok state', s')) as (state' & s' & Hrun)
    by (eexists _, _; vm_compute; reflexivity).
  exists state', s'. split; [exact Hrun|].
  destruct (returned_turns_alternate (steady_remote "draft") (One topic)
              (startup () ∅ ∅) state' s' Hrun) as (Hroles & _).
  exact Hroles.
Defined.

(** The environment says one thing and [.env] another. *)
Lemma environment_wins_over_dotenv_witness :
  ({[ "GOOGLE_API_KEY" := "from-environment" ]} : gmap string string)
    !! "GOOGLE_API_KEY" = Some "from-environment"
  ∧ trace (basic_py (steady_remote "draft") strict_client
             (startup () {[ "GOOGLE_API_KEY" := "from-environment" ]}
                {[ "GOOGLE_API_KEY" := "from-dotenv" ]})).2 !! 0
    = Some (credential_line "from-environment").
Proof.
  split; [reflexivity|].
  destruct (environment_wins_over_dotenv (steady_remote "draft") strict_client ()
              {[ "GOOGLE_API_KEY" := "from-environment" ]}
              {[ "GOOGLE_API_KEY" := "from-dotenv" ]} "from-environment")
    as [Hfirst _]; [reflexivity|].
  exact Hfirst.
Defined.

(** An empty credential, as a blank line of [.env] gives: the line is
    printed, the client is refused, and the script stops there, without a
    rendering of the graph and without a call of the model. *)
Example empty_credential_stops_after_the_line :
  (basic_py (steady_remote "draft") strict_client
     (startup () ∅ {[ "GOOGLE_API_KEY" := "" ]})).1
  = Raise (ValidationError "API key required")
  ∧ trace (basic_py (steady_remote "draft") strict_client
             (startup () ∅ {[ "GOOGLE_API_KEY" := "" ]})).2
    = [credential_line ""]
  ∧ model_calls
      (trace (basic_py (steady_remote "draft") strict_client
                (startup () ∅ {[ "GOOGLE_API_KEY" := "" ]})).2) = 0.
Proof. vm_compute. by repeat split. Qed.
